(** * Olive Grove Cover Crop Simulator: the water-balance engine

    A shallow embedding of the "Mathematical Engine" part of
    [app_streamlit.py] (lines 21-68) and the properties its specification
    states about it.

    The script is a straight-line program over module-level variables.  Each
    variable of the script becomes a definition of the same name, a function
    of the widget values it depends on.  Numbers are the numbers Python
    computes with: the sliders return [int]s (here [Z]), every other quantity
    is a binary64 [float] (here Rocq's primitive [float], the same IEEE 754
    format with the same round-to-nearest-even operations), and the decimal
    literals of the script denote the same doubles as the decimal literals
    below.  The few values that stay [int]s in Python (the 1000 that starts
    the soil-depth list, the 120 and 0 of an unmowed evaporation, the floors
    30 and 0 when [max] keeps them) are written as the floats equal to them:
    Python compares and subtracts them as those floats. *)

From Stdlib Require Import ZArith Lia List Bool String.
From Stdlib Require Import Floats.
From Stdlib Require Import Ascii.
From Stdlib Require DecimalString.
Import ListNotations.

#[local] Set Warnings "-inexact-float".

(** ** The fragment of Python the script uses *)

(** An [int] operand of a mixed [int]/[float] operation is converted to the
    nearest double.  The conversion is exact up to 2^53 in magnitude, far
    beyond what the sliders can return; CPython raises [OverflowError] beyond
    the range of doubles, so the model is only read for integers within
    [py_exact].  The true division [a / b] of two such [int]s is the
    correctly rounded quotient, which is the quotient of the two doubles. *)
Definition float_of_int (z : Z) : float :=
  SF2Prim (binary_normalize prec emax z 0 false).

Coercion float_of_int : Z >-> float.

Definition py_exact (z : Z) : Prop := (Z.abs z <= 2 ^ 53)%Z.

(** [max(a, b)]: the first argument is kept unless the second is strictly
    greater. *)
Definition py_max (a b : float) : float :=
  if (a <? b)%float then b else a.

(** [sub in s] on strings: [sub] occurs somewhere in [s]. *)
Definition py_in (sub s : string) : bool :=
  match String.index 0 sub s with
  | Some _ => true
  | None => false
  end.

(** [range(lo, hi)]: the integers from [lo] up to, not including, [hi]. *)
Fixpoint count_from (lo : Z) (n : nat) : list Z :=
  match n with
  | O => []
  | S n' => lo :: count_from (lo + 1) n'
  end.

Definition py_range (lo hi : Z) : list Z := count_from lo (Z.to_nat (hi - lo)).

(** The comparisons [x <= y] and [x < y] of two floats, as propositions. *)
Definition py_le (x y : float) : Prop := (x <=? y)%float = true.
Definition py_lt (x y : float) : Prop := (x <? y)%float = true.

(** [l[-1]].  It raises [IndexError] on an empty list; the script only reads
    it from a list that starts with one element and grows, and [nan] stands
    for the unreachable case. *)
Definition py_last (l : list float) : float := List.last l nan.

(** ** The widgets (lines 12-18) *)

Definition rainfall_min : Z := 200.
Definition rainfall_max : Z := 800.
Definition cover_min : Z := 0.
Definition cover_max : Z := 100.

Definition early_march : string := "Early (March)".
Definition late_may : string := "Late (May)".
Definition unmowed : string := "Unmowed".

Definition mowing_options : list string := [early_march; late_may; unmowed].

(** The values the widgets can hand to the engine: an integer within each
    slider's bounds, one of the three labels of the select box, and the state
    of the check box.  (The sliders move in steps of 10; the properties below
    hold for every integer within the bounds.) *)
Definition valid_input (rainfall cover_pct : Z) (mowing_time : string) : Prop :=
  (rainfall_min <= rainfall <= rainfall_max)%Z /\
  (cover_min <= cover_pct <= cover_max)%Z /\
  In mowing_time mowing_options.

(** ** The engine (lines 21-68) *)

Section Engine.

Variables (rainfall cover_pct : Z) (mowing_time : string) (climate_change : bool).

Local Open Scope float_scope.

(** 1. Climate change adjustments. *)
Definition actual_rainfall : float :=
  if climate_change then rainfall * 0.9 else rainfall.

Definition base_runoff_pct : float :=
  if climate_change then 0.30 else 0.20.

(** 2. Infiltration and runoff. *)
Definition runoff_reduction : float := (cover_pct / 10) * 0.01.

Definition final_runoff_pct : float :=
  py_max 0.05 (base_runoff_pct - runoff_reduction).

Definition runoff_mm : float := actual_rainfall * final_runoff_pct.

(** 3. Evaporation. *)
Definition base_evap : float := 120.

Definition evap_savings : float :=
  let evap_savings := 0 in
  if py_in "Early" mowing_time || py_in "Late" mowing_time
  then (cover_pct / 30) * 16.5
  else evap_savings.

Definition evap_mm : float := py_max 30 (base_evap - evap_savings).

(** 4. Transpiration. *)
Definition transp_mm : float :=
  if (mowing_time =? "Early (March)")%string then (cover_pct / 50) * 70
  else if (mowing_time =? "Late (May)")%string then (cover_pct / 50) * 110
  else (cover_pct / 50) * 150.

(** 5. Net water and yield. *)
Definition net_water : float :=
  actual_rainfall - runoff_mm - evap_mm - transp_mm.

Definition yield_kg : float := py_max 0 ((10 * net_water) - 1300).

(** 6. Long-term soil erosion. *)
Definition years : list Z := py_range 1 21.

Definition erosion_rate : float :=
  let erosion_rate := if climate_change then 3.0 else 2.0 in
  if (cover_pct >=? 30)%Z then 0.2 else erosion_rate.

(** One turn of the loop [soil_depth.append(soil_depth[-1] - erosion_rate)]. *)
Definition soil_step (soil_depth : list float) (y : Z) : list float :=
  soil_depth ++ [py_last soil_depth - erosion_rate].

(** [for y in range(1, 20)], started from [[1000]]. *)
Definition soil_depth : list float :=
  fold_left soil_step (py_range 1 20) [1000].

(** The two columns of [soil_df], row by row. *)
Definition soil_df : list (Z * float) := combine years soil_depth.

End Engine.

(** ** Executable checks on lists of floats *)

(** Every element of [l] is at most every element before it (and compares
    with itself, so none is a NaN). *)
Fixpoint nonincreasing_all (l : list float) : bool :=
  match l with
  | [] => true
  | x :: t => forallb (fun y => (y <=? x)%float) l && nonincreasing_all t
  end.

(** Every element of [l] is strictly below the one just before it. *)
Fixpoint strictly_decreasing (l : list float) : bool :=
  match l with
  | x :: ((y :: _) as t) => (y <? x)%float && strictly_decreasing t
  | _ => true
  end.

(** ** The recurrence of the soil-depth loop *)

(** Every element of [l] but the first is its predecessor less [rate]. *)
Definition chained (rate : float) (l : list float) : Prop :=
  forall k d, nth_error l (S k) = Some d ->
    exists p, nth_error l k = Some p /\ d = (p - rate)%float.

(** ** The layout (lines 72-89) *)

(** The [delta] shown under the "Annual Soil Loss" metric (line 79). *)
Definition soil_loss_delta (cover_pct : Z) (climate_change : bool) : string :=
  if (erosion_rate cover_pct climate_change <=? 0.2)%float
  then "- Tolerable" else "High Risk!".


(** ** Fixed-point formatting *)

(** [num / den] rounded to the nearest integer, ties to the even one
    ([num >= 0], [den > 0]). *)
Definition round_half_even (num den : Z) : Z :=
  let q := (num / den)%Z in
  match (2 * (num mod den) ?= den)%Z with
  | Lt => q
  | Gt => (q + 1)%Z
  | Eq => if Z.even q then q else (q + 1)%Z
  end.

(** The magnitude [m * 2^e] of a finite float times [10^p], correctly
    rounded to an integer. *)
Definition scaled_magnitude (m : positive) (e : Z) (p : nat) : Z :=
  let t := (10 ^ Z.of_nat p)%Z in
  if (0 <=? e)%Z then (Zpos m * 2 ^ e * t)%Z
  else round_half_even (Zpos m * t) (2 ^ (- e)).

(** The last [p] decimal digits of [n]. *)
Fixpoint fraction_digits (p : nat) (n : Z) : string :=
  match p with
  | O => EmptyString
  | S p' =>
      (fraction_digits p' (n / 10)
       ++ String (Ascii.ascii_of_nat (48 + Z.to_nat (n mod 10))) EmptyString)%string
  end.

(** [n / 10^p] written with [p] digits after the point, and no point when
    [p] is zero. *)
Definition fixed_point (n : Z) (p : nat) : string :=
  let t := (10 ^ Z.of_nat p)%Z in
  (DecimalString.NilZero.string_of_uint (N.to_uint (Z.to_N (n / t)))
   ++ match p with
      | O => EmptyString
      | _ => "." ++ fraction_digits p (n mod t)
      end)%string.

(** [f"{x:.pf}"]: the sign when the sign bit is set, then the exact value of
    the float rounded half-even to [p] decimals. *)
Definition py_format_f (p : nat) (x : float) : string :=
  let sign (s : bool) : string := if s then "-"%string else EmptyString in
  match Prim2SF x with
  | S754_nan => "nan"%string
  | S754_infinity s => (sign s ++ "inf")%string
  | S754_zero s => (sign s ++ fixed_point 0 p)%string
  | S754_finite s m e => (sign s ++ fixed_point (scaled_magnitude m e p) p)%string
  end.

(** ** The three metrics (lines 74-79) *)

Definition metric_net_water (rainfall cover_pct : Z) (mowing_time : string)
    (climate_change : bool) : string :=
  (py_format_f 1 (net_water rainfall cover_pct mowing_time climate_change)
   ++ " mm")%string.

Definition metric_yield (rainfall cover_pct : Z) (mowing_time : string)
    (climate_change : bool) : string :=
  (py_format_f 0 (yield_kg rainfall cover_pct mowing_time climate_change)
   ++ " kg/ha")%string.

Definition metric_soil_loss (cover_pct : Z) (climate_change : bool) : string :=
  (py_format_f 1 (erosion_rate cover_pct climate_change) ++ " mm/yr")%string.

(** ** The sliders' values as floats *)

(** Every rainfall and every cover within the bounds, converted once, and
    every rainfall below the upper bound paired with its successor. *)
Definition rainfall_floats : list float :=
  map float_of_int (py_range rainfall_min (rainfall_max + 1)).

Definition cover_floats : list float :=
  map float_of_int (py_range cover_min (cover_max + 1)).

Definition rainfall_steps : list (float * float) :=
  map (fun r : Z => (float_of_int r, float_of_int (r + 1)))
      (py_range rainfall_min rainfall_max).

(** * Properties *)

(** ** Concrete scenarios *)

(** C1 (scenario A).  For rainfall 400, cover 30, Early mowing and no climate
    scenario the engine computes actual rainfall 400, base runoff 0.20,
    runoff reduction 0.03, final runoff 0.17, runoff 68 mm, evaporation
    savings 16.5, evaporation 103.5 mm, transpiration 42 mm, net water
    186.5 mm, yield 565 kg and erosion rate 0.2. *)
Theorem scenario_A :
  actual_rainfall 400 false = 400%float /\
  base_runoff_pct false = 0.20%float /\
  runoff_reduction 30 = 0.03%float /\
  final_runoff_pct 30 false = 0.17%float /\
  runoff_mm 400 30 false = 68%float /\
  evap_savings 30 early_march = 16.5%float /\
  evap_mm 30 early_march = 103.5%float /\
  transp_mm 30 early_march = 42%float /\
  net_water 400 30 early_march false = 186.5%float /\
  yield_kg 400 30 early_march false = 565%float /\
  erosion_rate 30 false = 0.2%float.
Proof. repeat split; vm_compute; reflexivity. Qed.

(** C2 (scenario B).  For rainfall 400, cover 0, no mowing and the climate
    scenario the engine computes actual rainfall 360, base runoff 0.30,
    runoff reduction 0, final runoff 0.30, runoff 108 mm, evaporation
    savings 0, evaporation 120 mm, transpiration 0, net water 132 mm, yield
    20 kg and erosion rate 3.0. *)
Theorem scenario_B :
  actual_rainfall 400 true = 360%float /\
  base_runoff_pct true = 0.30%float /\
  runoff_reduction 0 = 0%float /\
  final_runoff_pct 0 true = 0.30%float /\
  runoff_mm 400 0 true = 108%float /\
  evap_savings 0 unmowed = 0%float /\
  evap_mm 0 unmowed = 120%float /\
  transp_mm 0 unmowed = 0%float /\
  net_water 400 0 unmowed true = 132%float /\
  yield_kg 400 0 unmowed true = 20%float /\
  erosion_rate 0 true = 3.0%float.
Proof. repeat split; vm_compute; reflexivity. Qed.

(** ** Facts about binary64 comparison and product *)

Lemma py_lt_le (a b : float) : py_lt a b -> py_le a b.
Proof.
  unfold py_lt, py_le. rewrite ltb_spec, leb_spec. unfold SFltb, SFleb.
  destruct (SFcompare (Prim2SF a) (Prim2SF b)) as [[ | | ]|]; congruence.
Qed.

(** [max(a, b)] is never below its first argument, provided that argument
    compares with itself (it is not a NaN). *)
Lemma py_max_lower (a b : float) : py_le a a -> py_le a (py_max a b).
Proof.
  intros Haa. unfold py_max.
  destruct (a <? b)%float eqn:Hab.
  - apply py_lt_le. exact Hab.
  - exact Haa.
Qed.

Lemma SFmul_comm (p e : Z) (x y : spec_float) : SFmul p e x y = SFmul p e y x.
Proof.
  destruct x as [sx|sx| |sx mx ex], y as [sy|sy| |sy my ey]; simpl;
    try reflexivity; rewrite (xorb_comm sx sy); try reflexivity.
  now rewrite (Pos.mul_comm mx my), (Z.add_comm ex ey).
Qed.

Lemma float_mul_comm (x y : float) : (x * y)%float = (y * x)%float.
Proof. apply Prim2SF_inj. rewrite !mul_spec. apply SFmul_comm. Qed.

(** Closing the side conditions of a concrete input. *)
Ltac concrete_input :=
  unfold valid_input, rainfall_min, rainfall_max, cover_min, cover_max,
    mowing_options, py_exact;
  simpl; repeat split; try lia; auto.

(** ** Floors *)

(** C3.  For every input within the sliders' bounds, any mowing label and
    either climate flag, the evaporation is at least 30, the yield is at
    least 0 and the final runoff fraction is at least 0.05. *)
Theorem floors_hold (rainfall cover_pct : Z) (mowing_time : string)
    (climate_change : bool) :
  valid_input rainfall cover_pct mowing_time ->
  py_le 30 (evap_mm cover_pct mowing_time) /\
  py_le 0 (yield_kg rainfall cover_pct mowing_time climate_change) /\
  py_le 0.05 (final_runoff_pct cover_pct climate_change).
Proof.
  intros _. unfold evap_mm, yield_kg, final_runoff_pct.
  repeat split; apply py_max_lower; reflexivity.
Qed.

Lemma floors_hold_witness :
  valid_input 400 30 early_march /\
  py_le 30 (evap_mm 30 early_march) /\
  py_le 0 (yield_kg 400 30 early_march false) /\
  py_le 0.05 (final_runoff_pct 30 false).
Proof.
  split; [concrete_input | apply (floors_hold 400 30 early_march false); concrete_input].
Defined.

(** ** Erosion rate *)

Lemma erosion_rate_cases (cover_pct : Z) (climate_change : bool) :
  erosion_rate cover_pct climate_change =
  if (cover_pct <? 30)%Z then (if climate_change then 3.0 else 2.0)%float
  else 0.2%float.
Proof.
  unfold erosion_rate. rewrite Z.geb_leb.
  destruct (Z.leb_spec 30 cover_pct), (Z.ltb_spec cover_pct 30);
    try reflexivity; lia.
Qed.

(** C5.  For every valid input the erosion rate is 3.0 when the climate
    scenario is on and the cover is below 30, 2.0 when it is off and the cover
    is below 30, and 0.2 when the cover is 30 or more, whatever the flag. *)
Theorem erosion_rate_step (rainfall cover_pct : Z) (mowing_time : string)
    (climate_change : bool) :
  valid_input rainfall cover_pct mowing_time ->
  (climate_change = true -> (cover_pct < 30)%Z ->
     erosion_rate cover_pct climate_change = 3.0%float) /\
  (climate_change = false -> (cover_pct < 30)%Z ->
     erosion_rate cover_pct climate_change = 2.0%float) /\
  ((30 <= cover_pct)%Z -> erosion_rate cover_pct climate_change = 0.2%float).
Proof.
  intros _. rewrite erosion_rate_cases.
  destruct (Z.ltb_spec cover_pct 30) as [Hlt|Hge].
  - repeat split; intros; subst; try reflexivity; lia.
  - repeat split; intros; try reflexivity; lia.
Qed.

Lemma erosion_rate_step_witness :
  erosion_rate 20 true = 3.0%float /\
  erosion_rate 20 false = 2.0%float /\
  erosion_rate 30 true = 0.2%float /\
  erosion_rate 30 false = 0.2%float.
Proof.
  assert (V20 : valid_input 400 20 unmowed) by concrete_input.
  assert (V30 : valid_input 400 30 unmowed) by concrete_input.
  split; [ | split; [ | split ] ].
  - apply (erosion_rate_step 400 20 unmowed true V20); [reflexivity | lia].
  - apply (erosion_rate_step 400 20 unmowed false V20); [reflexivity | lia].
  - apply (erosion_rate_step 400 30 unmowed true V30); lia.
  - apply (erosion_rate_step 400 30 unmowed false V30); lia.
Defined.

(** ** Climate adjustment *)

(** C7.  For every valid input, with the climate flag on the engine uses the
    rainfall times 0.9 and a base runoff fraction of 0.30, with the flag off
    the rainfall itself and 0.20; so the actual rainfall with the flag on is
    0.9 times the actual rainfall with the flag off. *)
Theorem climate_adjustment (rainfall cover_pct : Z) (mowing_time : string) :
  valid_input rainfall cover_pct mowing_time ->
  actual_rainfall rainfall true = (rainfall * 0.9)%float /\
  base_runoff_pct true = 0.30%float /\
  actual_rainfall rainfall false = rainfall /\
  base_runoff_pct false = 0.20%float /\
  actual_rainfall rainfall true = (0.9 * actual_rainfall rainfall false)%float.
Proof.
  intros _. unfold actual_rainfall, base_runoff_pct.
  repeat split. apply float_mul_comm.
Qed.

Lemma climate_adjustment_witness :
  actual_rainfall 400 true = (400%Z * 0.9)%float /\
  base_runoff_pct true = 0.30%float /\
  actual_rainfall 400 false = 400%Z /\
  base_runoff_pct false = 0.20%float /\
  actual_rainfall 400 true = (0.9 * actual_rainfall 400 false)%float.
Proof. apply (climate_adjustment 400 0 unmowed). concrete_input. Defined.

(** ** Net water *)

(** C8.  For every valid input the net water is the actual rainfall less the
    runoff, the evaporation and the transpiration, with no clamping; and for
    the valid input rainfall 200, cover 100, no mowing (either climate flag)
    it is negative. *)
Theorem net_water_unclamped :
  (forall (rainfall cover_pct : Z) (mowing_time : string) (climate_change : bool),
     valid_input rainfall cover_pct mowing_time ->
     net_water rainfall cover_pct mowing_time climate_change =
     (actual_rainfall rainfall climate_change
      - runoff_mm rainfall cover_pct climate_change
      - evap_mm cover_pct mowing_time
      - transp_mm cover_pct mowing_time)%float) /\
  valid_input 200 100 unmowed /\
  py_lt (net_water 200 100 unmowed false) 0 /\
  py_lt (net_water 200 100 unmowed true) 0.
Proof.
  split; [intros; reflexivity | ].
  split; [concrete_input | ].
  split; vm_compute; reflexivity.
Qed.

(** ** Ranges and rows *)

Lemma count_from_length (n : nat) : forall lo, List.length (count_from lo n) = n.
Proof. induction n as [|n IH]; intros lo; simpl; [reflexivity | now rewrite IH]. Qed.

Lemma count_from_nth (n : nat) : forall lo k, (k < n)%nat ->
  nth_error (count_from lo n) k = Some (lo + Z.of_nat k)%Z.
Proof.
  induction n as [|n IH]; intros lo k Hk; [lia | ].
  destruct k as [|k]; simpl.
  - f_equal. lia.
  - rewrite IH by lia. f_equal. lia.
Qed.

Lemma In_count_from (n : nat) : forall lo z,
  (lo <= z < lo + Z.of_nat n)%Z -> In z (count_from lo n).
Proof.
  induction n as [|n IH]; intros lo z Hz; [lia | ].
  simpl. destruct (Z.eq_dec lo z) as [Heq|Hneq]; [left; exact Heq | right].
  apply IH. lia.
Qed.

Lemma nth_error_combine {A B : Type} (l1 : list A) :
  forall (l2 : list B) (n : nat) (a : A) (b : B),
  nth_error l1 n = Some a -> nth_error l2 n = Some b ->
  nth_error (combine l1 l2) n = Some (a, b).
Proof.
  induction l1 as [|x l1 IH]; intros [|y l2] [|n] a b Ha Hb;
    simpl in *; try discriminate.
  - congruence.
  - now apply IH.
Qed.

Lemma years_nth (n : nat) : (1 <= n <= 20)%nat ->
  nth_error years (n - 1) = Some (Z.of_nat n).
Proof.
  intros Hn. unfold years, py_range.
  change (Z.to_nat (21 - 1)) with 20%nat.
  rewrite count_from_nth by lia. f_equal. lia.
Qed.

(** ** The soil-depth loop *)

Lemma py_last_nth (l : list float) : l <> [] ->
  nth_error l (List.length l - 1) = Some (py_last l).
Proof.
  unfold py_last.
  induction l as [|a l IH]; intros Hne; [congruence | ].
  destruct l as [|b l]; [reflexivity | ].
  change (last (a :: b :: l) nan) with (last (b :: l) nan).
  rewrite <- IH by discriminate. simpl. now rewrite Nat.sub_0_r.
Qed.

Section SoilLoop.

Variables (cover_pct : Z) (climate_change : bool).

Local Abbreviation rate := (erosion_rate cover_pct climate_change).
Local Abbreviation step := (soil_step cover_pct climate_change).

Lemma soil_step_nonempty (l : list float) (y : Z) : step l y <> [].
Proof. unfold soil_step. destruct l; discriminate. Qed.

Lemma soil_step_length (l : list float) (y : Z) :
  List.length (step l y) = S (List.length l).
Proof. unfold soil_step. rewrite length_app. simpl. lia. Qed.

Lemma soil_step_head (l : list float) (y : Z) : l <> [] ->
  nth_error (step l y) 0 = nth_error l 0.
Proof. unfold soil_step. destruct l; [congruence | reflexivity]. Qed.

(** One turn of the loop keeps the recurrence: the appended element is the
    last one less the rate. *)
Lemma soil_step_chained (l : list float) (y : Z) :
  l <> [] -> chained rate l -> chained rate (step l y).
Proof.
  intros Hne Hl k d Hk. unfold soil_step in *.
  assert (Hpos : (0 < List.length l)%nat) by (destruct l; [congruence | simpl; lia]).
  destruct (Nat.lt_ge_cases (S k) (List.length l)) as [Hlt|Hge].
  - rewrite nth_error_app1 in Hk by exact Hlt.
    rewrite nth_error_app1 by lia. now apply Hl.
  - rewrite nth_error_app2 in Hk by exact Hge.
    destruct (S k - List.length l)%nat as [|m] eqn:Hm; simpl in Hk.
    + injection Hk as <-. exists (py_last l). split; [ | reflexivity].
      rewrite nth_error_app1 by lia.
      replace k with (List.length l - 1)%nat by lia. now apply py_last_nth.
    + destruct m; discriminate.
Qed.

(** The loop invariant, for any list of years and any non-empty start. *)
Lemma soil_loop_invariant (ys : list Z) : forall l : list float,
  l <> [] -> chained rate l ->
  List.length (fold_left step ys l) = (List.length l + List.length ys)%nat /\
  nth_error (fold_left step ys l) 0 = nth_error l 0 /\
  chained rate (fold_left step ys l).
Proof.
  induction ys as [|y ys IH]; intros l Hne Hl; cbn [fold_left List.length].
  - repeat split; [lia | exact Hl].
  - destruct (IH (step l y)) as (Hlen & Hhd & Hch).
    + apply soil_step_nonempty.
    + now apply soil_step_chained.
    + rewrite Hlen, Hhd, soil_step_length, soil_step_head by exact Hne.
      repeat split; [lia | exact Hch].
Qed.

Lemma soil_depth_shape :
  List.length (soil_depth cover_pct climate_change) = 20%nat /\
  nth_error (soil_depth cover_pct climate_change) 0 = Some 1000%float /\
  chained rate (soil_depth cover_pct climate_change).
Proof.
  unfold soil_depth.
  destruct (soil_loop_invariant (py_range 1 20) [1000%float])
    as (Hlen & Hhd & Hch).
  - discriminate.
  - intros [|k] d Hk; discriminate.
  - rewrite Hlen, Hhd. unfold py_range. rewrite count_from_length.
    repeat split. exact Hch.
Qed.

(** From the second element on, each depth is the one before less the rate. *)
Lemma soil_depth_rows (n : nat) : (2 <= n <= 20)%nat ->
  exists prev : float,
    nth_error (soil_depth cover_pct climate_change) (n - 2) = Some prev /\
    nth_error (soil_depth cover_pct climate_change) (n - 1)
      = Some (prev - rate)%float.
Proof.
  intros Hn. destruct soil_depth_shape as (Hlen & _ & Hch).
  destruct (nth_error (soil_depth cover_pct climate_change) (n - 1))
    as [d|] eqn:Hd.
  - replace (n - 1)%nat with (S (n - 2)) in Hd by lia.
    destruct (Hch _ _ Hd) as (p & Hp & ->).
    exists p. split; [exact Hp | reflexivity].
  - apply nth_error_None in Hd. lia.
Qed.

(** Row [n] of the frame pairs year [n] with the [n]-th depth. *)
Lemma soil_df_row (n : nat) (d : float) : (1 <= n <= 20)%nat ->
  nth_error (soil_depth cover_pct climate_change) (n - 1) = Some d ->
  nth_error (soil_df cover_pct climate_change) (n - 1) = Some (Z.of_nat n, d).
Proof.
  intros Hn Hd. unfold soil_df.
  apply nth_error_combine; [now apply years_nth | exact Hd].
Qed.

End SoilLoop.

(** C4.  For every valid input the soil-depth series has exactly 20 entries,
    its first entry is year 1 at depth 1000, and for every n from 2 to 20 the
    n-th entry is the (n-1)-th entry less the one erosion rate computed for
    that input. *)
Theorem soil_series_recurrence (rainfall cover_pct : Z) (mowing_time : string)
    (climate_change : bool) :
  valid_input rainfall cover_pct mowing_time ->
  List.length (soil_df cover_pct climate_change) = 20%nat /\
  nth_error (soil_df cover_pct climate_change) 0 = Some (1%Z, 1000%float) /\
  forall n : nat, (2 <= n <= 20)%nat ->
    exists prev : float,
      nth_error (soil_df cover_pct climate_change) (n - 2)
        = Some (Z.of_nat (n - 1), prev) /\
      nth_error (soil_df cover_pct climate_change) (n - 1)
        = Some (Z.of_nat n,
                (prev - erosion_rate cover_pct climate_change)%float).
Proof.
  intros _.
  destruct (soil_depth_shape cover_pct climate_change) as (Hlen & Hhd & _).
  split; [ | split].
  - unfold soil_df. rewrite length_combine, Hlen. reflexivity.
  - apply (soil_df_row cover_pct climate_change 1); [lia | exact Hhd].
  - intros n Hn.
    destruct (soil_depth_rows cover_pct climate_change n Hn) as (prev & Hp & Hc).
    exists prev. split.
    + replace (n - 2)%nat with (n - 1 - 1)%nat in * by lia.
      apply soil_df_row; [lia | exact Hp].
    + apply soil_df_row; [lia | exact Hc].
Qed.

Lemma soil_series_recurrence_witness :
  List.length (soil_df 30 false) = 20%nat /\
  nth_error (soil_df 30 false) 0 = Some (1%Z, 1000%float) /\
  forall n : nat, (2 <= n <= 20)%nat ->
    exists prev : float,
      nth_error (soil_df 30 false) (n - 2) = Some (Z.of_nat (n - 1), prev) /\
      nth_error (soil_df 30 false) (n - 1)
        = Some (Z.of_nat n, (prev - erosion_rate 30 false)%float).
Proof. apply (soil_series_recurrence 400 30 early_march false). concrete_input. Defined.

(** ** Strict decrease of the series *)

Lemma strictly_decreasing_nth (l : list float) :
  strictly_decreasing l = true ->
  forall (k : nat) (a b : float),
    nth_error l k = Some a -> nth_error l (S k) = Some b -> py_lt b a.
Proof.
  induction l as [|x t IH]; intros H k a b Ha Hb.
  - destruct k; discriminate.
  - destruct t as [|y t'].
    + destruct k as [|[|k]]; discriminate.
    + cbn [strictly_decreasing] in H. apply andb_prop in H as [Hxy Ht].
      destruct k as [|k]; cbn [nth_error] in Ha, Hb.
      * injection Ha as <-. injection Hb as <-. exact Hxy.
      * now apply (IH Ht k).
Qed.

Lemma soil_depth_strict (cover_pct : Z) (climate_change : bool) :
  strictly_decreasing (soil_depth cover_pct climate_change) = true.
Proof.
  unfold soil_depth, soil_step, erosion_rate.
  destruct (cover_pct >=? 30)%Z, climate_change; vm_compute; reflexivity.
Qed.

(** C10.  For every valid input the erosion rate is one of 0.2, 2.0 and 3.0,
    hence strictly positive, and the soil-depth series goes strictly down
    from each entry to the next. *)
Theorem erosion_positive_series_strict (rainfall cover_pct : Z)
    (mowing_time : string) (climate_change : bool) :
  valid_input rainfall cover_pct mowing_time ->
  (erosion_rate cover_pct climate_change = 0.2%float \/
   erosion_rate cover_pct climate_change = 2.0%float \/
   erosion_rate cover_pct climate_change = 3.0%float) /\
  py_lt 0 (erosion_rate cover_pct climate_change) /\
  forall n : nat, (2 <= n <= 20)%nat ->
    exists prev cur : float,
      nth_error (soil_df cover_pct climate_change) (n - 2)
        = Some (Z.of_nat (n - 1), prev) /\
      nth_error (soil_df cover_pct climate_change) (n - 1)
        = Some (Z.of_nat n, cur) /\
      py_lt cur prev.
Proof.
  intros _. split; [ | split].
  - rewrite erosion_rate_cases.
    destruct (cover_pct <? 30)%Z, climate_change; auto.
  - rewrite erosion_rate_cases.
    destruct (cover_pct <? 30)%Z, climate_change; reflexivity.
  - intros n Hn.
    destruct (soil_depth_rows cover_pct climate_change n Hn) as (prev & Hp & Hc).
    exists prev, (prev - erosion_rate cover_pct climate_change)%float.
    split; [ | split].
    + replace (n - 2)%nat with (n - 1 - 1)%nat in * by lia.
      apply soil_df_row; [lia | exact Hp].
    + apply soil_df_row; [lia | exact Hc].
    + apply (strictly_decreasing_nth _
               (soil_depth_strict cover_pct climate_change) (n - 2) _ _ Hp).
      replace (S (n - 2)) with (n - 1)%nat by lia. exact Hc.
Qed.

Lemma erosion_positive_series_strict_witness :
  valid_input 400 0 unmowed /\
  py_lt 0 (erosion_rate 0 true) /\
  exists prev cur : float,
    nth_error (soil_df 0 true) 0 = Some (1%Z, prev) /\
    nth_error (soil_df 0 true) 1 = Some (2%Z, cur) /\
    py_lt cur prev.
Proof.
  assert (V : valid_input 400 0 unmowed) by concrete_input.
  split; [exact V | ].
  destruct (erosion_positive_series_strict 400 0 unmowed true V)
    as (_ & Hpos & Hrows).
  split; [exact Hpos | ].
  apply (Hrows 2%nat). lia.
Defined.

(** ** Monotonicity in the cover *)

Lemma py_range_In (lo hi z : Z) : (lo <= z < hi)%Z -> In z (py_range lo hi).
Proof. intros Hz. unfold py_range. apply In_count_from. lia. Qed.

(** A table of [f] over a range that passes [nonincreasing_all] orders the
    values of [f] at any two points of the range. *)
Lemma nonincreasing_all_range (f : Z -> float) (n : nat) : forall lo : Z,
  nonincreasing_all (map f (count_from lo n)) = true ->
  forall c1 c2 : Z, (lo <= c1)%Z -> (c1 <= c2)%Z -> (c2 < lo + Z.of_nat n)%Z ->
  py_le (f c2) (f c1).
Proof.
  induction n as [|n IH]; intros lo H c1 c2 H1 H12 H2; [lia | ].
  cbn [count_from map nonincreasing_all] in H.
  apply andb_prop in H as [Hfirst Hrest].
  destruct (Z.eq_dec c1 lo) as [->|Hneq].
  - rewrite forallb_forall in Hfirst. apply (Hfirst (f c2)).
    change (In (f c2) (map f (count_from lo (S n)))).
    apply in_map, In_count_from. lia.
  - apply (IH (lo + 1)%Z Hrest); lia.
Qed.

(** The runoff, tabulated over the cover, never goes up: checked for every
    rainfall within the bounds and either flag. *)
Lemma runoff_table_nonincreasing (rainfall : Z) (climate_change : bool) :
  In rainfall (py_range rainfall_min (rainfall_max + 1)) ->
  nonincreasing_all
    (map (fun cover_pct => runoff_mm rainfall cover_pct climate_change)
         (py_range cover_min (cover_max + 1))) = true.
Proof.
  revert rainfall. apply forallb_forall.
  destruct climate_change; vm_compute; reflexivity.
Qed.

(** The same for the evaporation, for each label of the select box. *)
Lemma evap_table_nonincreasing (mowing_time : string) :
  In mowing_time mowing_options ->
  nonincreasing_all
    (map (fun cover_pct => evap_mm cover_pct mowing_time)
         (py_range cover_min (cover_max + 1))) = true.
Proof.
  revert mowing_time. apply forallb_forall. vm_compute. reflexivity.
Qed.

(** C6.  For two valid inputs that agree on rainfall, mowing label and climate
    flag, if the first has the smaller or equal cover then its runoff and its
    evaporation are greater than or equal to those of the second. *)
Theorem cover_monotone (rainfall cover1 cover2 : Z) (mowing_time : string)
    (climate_change : bool) :
  valid_input rainfall cover1 mowing_time ->
  valid_input rainfall cover2 mowing_time ->
  (cover1 <= cover2)%Z ->
  py_le (runoff_mm rainfall cover2 climate_change)
        (runoff_mm rainfall cover1 climate_change) /\
  py_le (evap_mm cover2 mowing_time) (evap_mm cover1 mowing_time).
Proof.
  unfold valid_input, rainfall_min, rainfall_max, cover_min, cover_max.
  intros (Hr & Hc1 & Hm) (_ & Hc2 & _) Hle. split.
  - assert (Hin : In rainfall (py_range rainfall_min (rainfall_max + 1)))
      by (apply py_range_In; unfold rainfall_min, rainfall_max; lia).
    apply (nonincreasing_all_range
             (fun c => runoff_mm rainfall c climate_change) _ _
             (runoff_table_nonincreasing rainfall climate_change Hin));
      unfold cover_min, cover_max; lia.
  - apply (nonincreasing_all_range
             (fun c => evap_mm c mowing_time) _ _
             (evap_table_nonincreasing mowing_time Hm));
      unfold cover_min, cover_max; lia.
Qed.

Lemma cover_monotone_witness :
  py_le (runoff_mm 400 60 true) (runoff_mm 400 30 true) /\
  py_le (evap_mm 60 late_may) (evap_mm 30 late_may).
Proof.
  apply (cover_monotone 400 30 60 late_may true); [concrete_input .. | lia].
Defined.

(** * Further properties of the engine and the layout *)

(** ** More facts about binary64 *)



Lemma SFleb_trans (x y z : spec_float) :
  SFleb x y = true -> SFleb y z = true -> SFleb x z = true.
Proof.
  unfold SFleb, SFcompare.
  destruct x as [sx|sx| |sx mx ex], y as [sy|sy| |sy my ey],
           z as [sz|sz| |sz mz ez];
    try discriminate; try reflexivity;
    try (destruct sx; try discriminate; try reflexivity);
    try (destruct sy; try discriminate; try reflexivity);
    try (destruct sz; try discriminate; try reflexivity).
  - destruct (Z.compare_spec ex ey), (Z.compare_spec ey ez),
      (Z.compare_spec ex ez); try discriminate; try reflexivity; try lia.
    subst. change (Pos.compare_cont Eq) with Pos.compare.
    destruct (Pos.compare_spec mx my), (Pos.compare_spec my mz),
      (Pos.compare_spec mx mz); simpl; try discriminate; try reflexivity; lia.
  - destruct (Z.compare_spec ex ey), (Z.compare_spec ey ez),
      (Z.compare_spec ex ez); try discriminate; try reflexivity; try lia.
    subst. change (Pos.compare_cont Eq) with Pos.compare.
    destruct (Pos.compare_spec mx my), (Pos.compare_spec my mz),
      (Pos.compare_spec mx mz); simpl; try discriminate; try reflexivity; lia.
Qed.

Lemma SFleb_refl_l (x y : spec_float) : SFleb x y = true -> SFleb x x = true.
Proof.
  unfold SFleb, SFcompare.
  destruct x as [sx|sx| |sx mx ex]; try discriminate; try reflexivity.
  - intros _. destruct sx; reflexivity.
  - intros _. rewrite Z.compare_refl.
    change (Pos.compare_cont Eq) with Pos.compare. rewrite Pos.compare_refl.
    destruct sx; reflexivity.
Qed.

Lemma SFleb_refl_r (x y : spec_float) : SFleb x y = true -> SFleb y y = true.
Proof.
  unfold SFleb, SFcompare.
  destruct y as [sy|sy| |sy my ey].
  - reflexivity.
  - intros _. destruct sy; reflexivity.
  - destruct x; discriminate.
  - intros _. rewrite Z.compare_refl.
    change (Pos.compare_cont Eq) with Pos.compare. rewrite Pos.compare_refl.
    destruct sy; reflexivity.
Qed.

Lemma py_le_trans (x y z : float) : py_le x y -> py_le y z -> py_le x z.
Proof. unfold py_le. rewrite !leb_spec. apply SFleb_trans. Qed.
Lemma py_le_refl_l (x y : float) : py_le x y -> py_le x x.
Proof. unfold py_le. rewrite !leb_spec. apply SFleb_refl_l. Qed.
Lemma py_le_refl_r (x y : float) : py_le x y -> py_le y y.
Proof. unfold py_le. rewrite !leb_spec. apply SFleb_refl_r. Qed.

(** ** Tables over the sliders' values *)

Lemma rainfall_floats_In (r : Z) : (rainfall_min <= r <= rainfall_max)%Z ->
  In (float_of_int r) rainfall_floats.
Proof. intros Hr. apply in_map, py_range_In. lia. Qed.

Lemma cover_floats_In (c : Z) : (cover_min <= c <= cover_max)%Z ->
  In (float_of_int c) cover_floats.
Proof. intros Hc. apply in_map, py_range_In. lia. Qed.

Lemma rainfall_steps_In (r : Z) : (rainfall_min <= r < rainfall_max)%Z ->
  In (float_of_int r, float_of_int (r + 1)) rainfall_steps.
Proof.
  intros Hr. unfold rainfall_steps.
  apply (in_map (fun r : Z => (float_of_int r, float_of_int (r + 1)))).
  apply py_range_In. lia.
Qed.

(** A check that passes on every pair of the two tables holds at every
    rainfall and cover within the bounds. *)
Lemma table_covers (P : float -> float -> bool) :
  forallb (fun R => forallb (P R) cover_floats) rainfall_floats = true ->
  forall r c : Z,
    (rainfall_min <= r <= rainfall_max)%Z -> (cover_min <= c <= cover_max)%Z ->
    P (float_of_int r) (float_of_int c) = true.
Proof.
  intros T r c Hr Hc. rewrite forallb_forall in T.
  specialize (T _ (rainfall_floats_In r Hr)). rewrite forallb_forall in T.
  exact (T _ (cover_floats_In c Hc)).
Qed.

Lemma table_steps (P : float -> float -> float -> bool) :
  forallb (fun RR => forallb (P (fst RR) (snd RR)) cover_floats) rainfall_steps
    = true ->
  forall r c : Z,
    (rainfall_min <= r < rainfall_max)%Z -> (cover_min <= c <= cover_max)%Z ->
    P (float_of_int r) (float_of_int (r + 1)) (float_of_int c) = true.
Proof.
  intros T r c Hr Hc. rewrite forallb_forall in T.
  specialize (T _ (rainfall_steps_In r Hr)). rewrite forallb_forall in T.
  exact (T _ (cover_floats_In c Hc)).
Qed.

Lemma table_cover (P : float -> bool) :
  forallb P cover_floats = true ->
  forall c : Z, (cover_min <= c <= cover_max)%Z -> P (float_of_int c) = true.
Proof.
  intros T c Hc. rewrite forallb_forall in T. exact (T _ (cover_floats_In c Hc)).
Qed.

(** Unfold the engine down to float arithmetic on the converted slider
    values, and decide the string tests on a concrete label. *)
Ltac engine_on_floats :=
  unfold yield_kg, net_water, runoff_mm, final_runoff_pct, runoff_reduction,
    actual_rainfall, base_runoff_pct, evap_mm, evap_savings, base_evap,
    transp_mm;
  repeat match goal with
  | |- context [py_in ?a ?b] =>
      let v := eval vm_compute in (py_in a b) in change (py_in a b) with v
  | |- context [String.eqb ?a ?b] =>
      let v := eval vm_compute in (String.eqb a b) in
      change (String.eqb a b) with v
  end;
  cbv beta iota delta [orb].

(** Settle a boolean goal about the engine at [r] and [c] by running it over
    the tables. *)
Ltac by_table r c :=
  engine_on_floats;
  match goal with
  | |- ?b = true =>
      let b' := eval pattern (float_of_int r), (float_of_int c) in b in
      match b' with
      | ?F _ _ =>
          change (F (float_of_int r) (float_of_int c) = true);
          apply (fun T => table_covers F T r c);
          [vm_compute; reflexivity | assumption ..]
      end
  end.

Ltac by_cover_table c :=
  engine_on_floats;
  match goal with
  | |- ?b = true =>
      let b' := eval pattern (float_of_int c) in b in
      match b' with
      | ?F _ =>
          change (F (float_of_int c) = true);
          apply (fun T => table_cover F T c);
          [vm_compute; reflexivity | assumption]
      end
  end.

Ltac by_steps r c :=
  engine_on_floats;
  match goal with
  | |- ?b = true =>
      let b' := eval pattern (float_of_int r), (float_of_int (r + 1)),
                  (float_of_int c) in b in
      match b' with
      | ?F _ _ _ =>
          change (F (float_of_int r) (float_of_int (r + 1)) (float_of_int c)
                  = true);
          apply (fun T => table_steps F T r c);
          [vm_compute; reflexivity | assumption ..]
      end
  end.

Ltac each_label H := destruct H as [<-|[<-|[<-|[]]]].

(** A function that never goes down from [r] to [r + 1] never goes down
    between any two points of the interval. *)
Lemma steps_to_monotone (f : Z -> float) (lo hi : Z) :
  (lo < hi)%Z ->
  (forall r : Z, (lo <= r < hi)%Z -> py_le (f r) (f (r + 1)%Z)) ->
  forall r1 r2 : Z, (lo <= r1)%Z -> (r1 <= r2)%Z -> (r2 <= hi)%Z ->
  py_le (f r1) (f r2).
Proof.
  intros Hlohi Hstep r1 r2 H1 H12 H2.
  replace r2 with (r1 + Z.of_nat (Z.to_nat (r2 - r1)))%Z by lia.
  assert (Hn : (r1 + Z.of_nat (Z.to_nat (r2 - r1)) <= hi)%Z) by lia.
  induction (Z.to_nat (r2 - r1)) as [|n IH].
  - rewrite Z.add_0_r. destruct (Z.eq_dec r1 hi) as [->|Hne].
    + apply (py_le_refl_r (f (hi - 1)%Z)).
      replace hi with (hi - 1 + 1)%Z at 2 by lia. apply Hstep. lia.
    + apply (py_le_refl_l _ (f (r1 + 1)%Z)). apply Hstep. lia.
  - apply (py_le_trans _ (f (r1 + Z.of_nat n)%Z)); [apply IH; lia | ].
    replace (r1 + Z.of_nat (S n))%Z with (r1 + Z.of_nat n + 1)%Z by lia.
    apply Hstep. lia.
Qed.

(** ** The soil-loss label *)

(** X1.  The label under the soil-loss metric reads "- Tolerable" exactly
    when the cover is 30 or more, and "High Risk!" otherwise, whatever the
    climate flag. *)
Theorem soil_loss_delta_by_cover (cover_pct : Z) (climate_change : bool) :
  ((30 <= cover_pct)%Z ->
     soil_loss_delta cover_pct climate_change = "- Tolerable"%string) /\
  ((cover_pct < 30)%Z ->
     soil_loss_delta cover_pct climate_change = "High Risk!"%string).
Proof.
  unfold soil_loss_delta. rewrite erosion_rate_cases.
  destruct (Z.ltb_spec cover_pct 30), climate_change;
    split; intros; try lia; reflexivity.
Qed.

(** ** The bar chart *)




(** ** The floors are never reached *)

(** X4.  For every valid input neither floor is active: the final runoff
    fraction is the base fraction less the reduction and lies between 0.1 and
    0.3, and the evaporation is the base evaporation less the savings and
    lies between 65 and 120. *)
Theorem floors_never_reached (rainfall cover_pct : Z) (mowing_time : string)
    (climate_change : bool) :
  valid_input rainfall cover_pct mowing_time ->
  final_runoff_pct cover_pct climate_change
    = (base_runoff_pct climate_change - runoff_reduction cover_pct)%float /\
  py_le 0.1 (final_runoff_pct cover_pct climate_change) /\
  py_le (final_runoff_pct cover_pct climate_change) 0.3 /\
  evap_mm cover_pct mowing_time
    = (base_evap - evap_savings cover_pct mowing_time)%float /\
  py_le 65 (evap_mm cover_pct mowing_time) /\
  py_le (evap_mm cover_pct mowing_time) 120.
Proof.
  intros (Hr & Hc & Hm).
  assert (T : ((0.05 <? base_runoff_pct climate_change
                         - runoff_reduction cover_pct)
               && (0.1 <=? final_runoff_pct cover_pct climate_change)
               && (final_runoff_pct cover_pct climate_change <=? 0.3)
               && (30 <? base_evap - evap_savings cover_pct mowing_time)
               && (65 <=? evap_mm cover_pct mowing_time)
               && (evap_mm cover_pct mowing_time <=? 120))%float = true).
  { each_label Hm; destruct climate_change; by_cover_table cover_pct. }
  apply andb_prop in T as [T T6]. apply andb_prop in T as [T T5].
  apply andb_prop in T as [T T4]. apply andb_prop in T as [T T3].
  apply andb_prop in T as [T1 T2].
  assert (E1 : final_runoff_pct cover_pct climate_change
               = (base_runoff_pct climate_change
                  - runoff_reduction cover_pct)%float)
    by (unfold final_runoff_pct, py_max; now rewrite T1).
  assert (E2 : evap_mm cover_pct mowing_time
               = (base_evap - evap_savings cover_pct mowing_time)%float)
    by (unfold evap_mm, py_max; now rewrite T4).
  split; [exact E1 | ]. split; [exact T2 | ]. split; [exact T3 | ].
  split; [exact E2 | ]. split; [exact T5 | exact T6].
Qed.

Lemma floors_never_reached_witness :
  final_runoff_pct 100 false
    = (base_runoff_pct false - runoff_reduction 100)%float /\
  py_le 0.1 (final_runoff_pct 100 false) /\
  py_le (final_runoff_pct 100 false) 0.3 /\
  evap_mm 100 late_may = (base_evap - evap_savings 100 late_may)%float /\
  py_le 65 (evap_mm 100 late_may) /\
  py_le (evap_mm 100 late_may) 120.
Proof. apply (floors_never_reached 800 100 late_may false). concrete_input. Defined.

(** ** The mowing labels *)

(** X5.  On the three labels of the select box the substring tests of the
    evaporation and the equality tests of the transpiration agree: the two
    mowed labels get the mulch savings and the references 70 and 110, and the
    unmowed label gets no savings, an evaporation of 120 whatever the cover,
    and the reference 150. *)
Theorem mowing_labels_consistent (cover_pct : Z) (mowing_time : string) :
  In mowing_time mowing_options ->
  (mowing_time = early_march /\
   evap_savings cover_pct mowing_time = (cover_pct / 30 * 16.5)%float /\
   transp_mm cover_pct mowing_time = (cover_pct / 50 * 70)%float) \/
  (mowing_time = late_may /\
   evap_savings cover_pct mowing_time = (cover_pct / 30 * 16.5)%float /\
   transp_mm cover_pct mowing_time = (cover_pct / 50 * 110)%float) \/
  (mowing_time = unmowed /\
   evap_savings cover_pct mowing_time = 0%float /\
   evap_mm cover_pct mowing_time = 120%float /\
   transp_mm cover_pct mowing_time = (cover_pct / 50 * 150)%float).
Proof.
  intros Hm. each_label Hm.
  - left. repeat split.
  - right; left. repeat split.
  - right; right. repeat split.
Qed.

Lemma mowing_labels_consistent_witness :
  evap_savings 60 late_may = 33%float /\
  transp_mm 60 late_may = 132%float.
Proof.
  destruct (mowing_labels_consistent 60 late_may) as [(E & _)|[(_ & Hs & Ht)|(E & _)]];
    [unfold mowing_options; simpl; auto | discriminate E | | discriminate E].
  rewrite Hs, Ht. split; vm_compute; reflexivity.
Defined.

(** ** The soil-depth series in closed form and in bounds *)

Lemma soil_df_by_cover (cover_pct : Z) (climate_change : bool) :
  soil_df cover_pct climate_change
  = soil_df (if (cover_pct <? 30)%Z then 0 else 30) climate_change.
Proof.
  unfold soil_df, soil_depth, soil_step. rewrite !erosion_rate_cases.
  destruct (cover_pct <? 30)%Z; reflexivity.
Qed.

(** X6.  Below 30 percent cover the series is exactly linear: the depth of
    year [y] is 1000 less [y - 1] times 3 under the climate scenario, and
    times 2 without it. *)
Theorem bare_soil_series_linear (cover_pct : Z) (climate_change : bool) :
  (cover_pct < 30)%Z ->
  soil_df cover_pct climate_change
  = map (fun y : Z =>
           (y, float_of_int
                 (1000 - (y - 1) * (if climate_change then 3 else 2))))
        (py_range 1 21).
Proof.
  intros Hc. rewrite soil_df_by_cover.
  destruct (Z.ltb_spec cover_pct 30) as [_|Hge]; [ | lia].
  destruct climate_change; vm_compute; reflexivity.
Qed.

Lemma bare_soil_series_linear_witness :
  nth_error (soil_df 20 true) 19 = Some (20%Z, 943%float).
Proof.
  rewrite (bare_soil_series_linear 20 true); [ | lia].
  vm_compute. reflexivity.
Defined.

(** X7.  For every input, every row of the soil-depth frame has a year from 1
    to 20 and a depth from 943 to 1000 mm; with a cover of 30 or more the
    depth stays above 996 mm. *)
Theorem soil_depth_bounds (cover_pct : Z) (climate_change : bool)
    (y : Z) (d : float) :
  In (y, d) (soil_df cover_pct climate_change) ->
  (1 <= y <= 20)%Z /\ py_le 943 d /\ py_le d 1000 /\
  ((30 <= cover_pct)%Z -> py_lt 996 d).
Proof.
  rewrite soil_df_by_cover. intros Hin.
  destruct (Z.ltb_spec cover_pct 30) as [Hlt|Hge].
  - assert (T : forallb (fun row : Z * float =>
                  (1 <=? fst row)%Z && (fst row <=? 20)%Z
                  && (943 <=? snd row)%float && (snd row <=? 1000)%float)
                (soil_df 0 climate_change) = true)
      by (destruct climate_change; vm_compute; reflexivity).
    rewrite forallb_forall in T. specialize (T _ Hin). cbn [fst snd] in T.
    apply andb_prop in T as [T T4]. apply andb_prop in T as [T T3].
    apply andb_prop in T as [T1 T2]. apply Z.leb_le in T1, T2.
    split; [lia | ]. split; [exact T3 | ]. split; [exact T4 | lia].
  - assert (T : forallb (fun row : Z * float =>
                  (1 <=? fst row)%Z && (fst row <=? 20)%Z
                  && (943 <=? snd row)%float && (snd row <=? 1000)%float
                  && (996 <? snd row)%float)
                (soil_df 30 climate_change) = true)
      by (destruct climate_change; vm_compute; reflexivity).
    rewrite forallb_forall in T. specialize (T _ Hin). cbn [fst snd] in T.
    apply andb_prop in T as [T T5].
    apply andb_prop in T as [T T4]. apply andb_prop in T as [T T3].
    apply andb_prop in T as [T1 T2]. apply Z.leb_le in T1, T2.
    split; [lia | ]. split; [exact T3 | ]. split; [exact T4 | ].
    intros _. exact T5.
Qed.

Lemma soil_depth_bounds_witness :
  In (20%Z, 943%float) (soil_df 0 true) /\
  py_le 943 943 /\ py_le 943 1000.
Proof.
  assert (Hin : In (20%Z, 943%float) (soil_df 0 true))
    by (vm_compute; tauto).
  split; [exact Hin | ].
  destruct (soil_depth_bounds 0 true 20 943 Hin) as (_ & Hlo & Hhi & _).
  split; [exact Hlo | exact Hhi].
Defined.

(** ** The climate scenario, the mowing and the rainfall *)

(** X8.  For every valid input, switching the climate scenario on lowers the
    actual rainfall, raises the runoff, lowers the net water, never raises
    the yield and never lowers the erosion rate. *)
Theorem climate_never_helps (rainfall cover_pct : Z) (mowing_time : string) :
  valid_input rainfall cover_pct mowing_time ->
  py_lt (actual_rainfall rainfall true) (actual_rainfall rainfall false) /\
  py_lt (runoff_mm rainfall cover_pct false) (runoff_mm rainfall cover_pct true) /\
  py_lt (net_water rainfall cover_pct mowing_time true)
        (net_water rainfall cover_pct mowing_time false) /\
  py_le (yield_kg rainfall cover_pct mowing_time true)
        (yield_kg rainfall cover_pct mowing_time false) /\
  py_le (erosion_rate cover_pct false) (erosion_rate cover_pct true).
Proof.
  intros (Hr & Hc & Hm).
  assert (T : ((actual_rainfall rainfall true <? actual_rainfall rainfall false)
               && (runoff_mm rainfall cover_pct false
                   <? runoff_mm rainfall cover_pct true)
               && (net_water rainfall cover_pct mowing_time true
                   <? net_water rainfall cover_pct mowing_time false)
               && (yield_kg rainfall cover_pct mowing_time true
                   <=? yield_kg rainfall cover_pct mowing_time false))%float
              = true).
  { each_label Hm; by_table rainfall cover_pct. }
  apply andb_prop in T as [T T4]. apply andb_prop in T as [T T3].
  apply andb_prop in T as [T1 T2].
  split; [exact T1 | ]. split; [exact T2 | ]. split; [exact T3 | ].
  split; [exact T4 | ].
  rewrite !erosion_rate_cases. destruct (cover_pct <? 30)%Z; reflexivity.
Qed.

Lemma climate_never_helps_witness :
  py_lt (net_water 400 30 early_march true) (net_water 400 30 early_march false) /\
  py_le (yield_kg 400 30 early_march true) (yield_kg 400 30 early_march false).
Proof.
  destruct (climate_never_helps 400 30 early_march) as (_ & _ & Hn & Hy & _);
    [concrete_input | ].
  split; [exact Hn | exact Hy].
Defined.

(** X9.  For every rainfall and cover within the bounds and either flag, the
    later the mowing the more the cover transpires, an unmowed cover
    evaporates at least as much as a mowed one, and so the net water and the
    yield are lowest unmowed and highest with early mowing. *)
Theorem mowing_order (rainfall cover_pct : Z) (climate_change : bool) :
  (rainfall_min <= rainfall <= rainfall_max)%Z ->
  (cover_min <= cover_pct <= cover_max)%Z ->
  py_le (transp_mm cover_pct early_march) (transp_mm cover_pct late_may) /\
  py_le (transp_mm cover_pct late_may) (transp_mm cover_pct unmowed) /\
  evap_mm cover_pct early_march = evap_mm cover_pct late_may /\
  py_le (evap_mm cover_pct late_may) (evap_mm cover_pct unmowed) /\
  py_le (net_water rainfall cover_pct unmowed climate_change)
        (net_water rainfall cover_pct late_may climate_change) /\
  py_le (net_water rainfall cover_pct late_may climate_change)
        (net_water rainfall cover_pct early_march climate_change) /\
  py_le (yield_kg rainfall cover_pct unmowed climate_change)
        (yield_kg rainfall cover_pct late_may climate_change) /\
  py_le (yield_kg rainfall cover_pct late_may climate_change)
        (yield_kg rainfall cover_pct early_march climate_change).
Proof.
  intros Hr Hc.
  assert (T : ((transp_mm cover_pct early_march <=? transp_mm cover_pct late_may)
               && (transp_mm cover_pct late_may <=? transp_mm cover_pct unmowed)
               && (evap_mm cover_pct late_may <=? evap_mm cover_pct unmowed)
               && (net_water rainfall cover_pct unmowed climate_change
                   <=? net_water rainfall cover_pct late_may climate_change)
               && (net_water rainfall cover_pct late_may climate_change
                   <=? net_water rainfall cover_pct early_march climate_change)
               && (yield_kg rainfall cover_pct unmowed climate_change
                   <=? yield_kg rainfall cover_pct late_may climate_change)
               && (yield_kg rainfall cover_pct late_may climate_change
                   <=? yield_kg rainfall cover_pct early_march climate_change)
              )%float = true).
  { destruct climate_change; by_table rainfall cover_pct. }
  apply andb_prop in T as [T T7]. apply andb_prop in T as [T T6].
  apply andb_prop in T as [T T5]. apply andb_prop in T as [T T4].
  apply andb_prop in T as [T T3]. apply andb_prop in T as [T1 T2].
  split; [exact T1 | ]. split; [exact T2 | ]. split; [reflexivity | ].
  split; [exact T3 | ]. split; [exact T4 | ]. split; [exact T5 | ].
  split; [exact T6 | exact T7].
Qed.

Lemma mowing_order_witness :
  py_le (net_water 400 50 unmowed false) (net_water 400 50 late_may false) /\
  py_le (net_water 400 50 late_may false) (net_water 400 50 early_march false).
Proof.
  destruct (mowing_order 400 50 false) as (_ & _ & _ & _ & H1 & H2 & _);
    [unfold rainfall_min, rainfall_max; lia
    | unfold cover_min, cover_max; lia | ].
  split; [exact H1 | exact H2].
Defined.

(** X10.  For two valid inputs that differ only in the rainfall, the one with
    more rain has at least as much runoff, net water and yield. *)
Theorem rainfall_monotone (rainfall1 rainfall2 cover_pct : Z)
    (mowing_time : string) (climate_change : bool) :
  valid_input rainfall1 cover_pct mowing_time ->
  valid_input rainfall2 cover_pct mowing_time ->
  (rainfall1 <= rainfall2)%Z ->
  py_le (runoff_mm rainfall1 cover_pct climate_change)
        (runoff_mm rainfall2 cover_pct climate_change) /\
  py_le (net_water rainfall1 cover_pct mowing_time climate_change)
        (net_water rainfall2 cover_pct mowing_time climate_change) /\
  py_le (yield_kg rainfall1 cover_pct mowing_time climate_change)
        (yield_kg rainfall2 cover_pct mowing_time climate_change).
Proof.
  intros (Hr1 & Hc & Hm) (Hr2 & _ & _) Hle.
  assert (T : forall r : Z, (rainfall_min <= r < rainfall_max)%Z ->
    ((runoff_mm r cover_pct climate_change
      <=? runoff_mm (r + 1) cover_pct climate_change)
     && (net_water r cover_pct mowing_time climate_change
         <=? net_water (r + 1) cover_pct mowing_time climate_change)
     && (yield_kg r cover_pct mowing_time climate_change
         <=? yield_kg (r + 1) cover_pct mowing_time climate_change))%float
    = true).
  { intros r Hr. each_label Hm; destruct climate_change; by_steps r cover_pct. }
  assert (Hlohi : (rainfall_min < rainfall_max)%Z) by reflexivity.
  split; [ | split].
  - apply (steps_to_monotone
             (fun r => runoff_mm r cover_pct climate_change) _ _ Hlohi);
      try lia.
    intros r Hr. destruct (andb_prop _ _ (T r Hr)) as [T12 _].
    destruct (andb_prop _ _ T12) as [T1 _]. exact T1.
  - apply (steps_to_monotone
             (fun r => net_water r cover_pct mowing_time climate_change)
             _ _ Hlohi); try lia.
    intros r Hr. destruct (andb_prop _ _ (T r Hr)) as [T12 _].
    destruct (andb_prop _ _ T12) as [_ T2]. exact T2.
  - apply (steps_to_monotone
             (fun r => yield_kg r cover_pct mowing_time climate_change)
             _ _ Hlohi); try lia.
    intros r Hr. destruct (andb_prop _ _ (T r Hr)) as [_ T3]. exact T3.
Qed.

Lemma rainfall_monotone_witness :
  py_le (net_water 300 30 late_may true) (net_water 700 30 late_may true) /\
  py_le (yield_kg 300 30 late_may true) (yield_kg 700 30 late_may true).
Proof.
  destruct (rainfall_monotone 300 700 30 late_may true) as (_ & Hn & Hy);
    [concrete_input | concrete_input | lia | ].
  split; [exact Hn | exact Hy].
Defined.

(** ** The yield threshold *)

Lemma yield_cases (rainfall cover_pct : Z) (mowing_time : string)
    (climate_change : bool) :
  valid_input rainfall cover_pct mowing_time ->
  (py_lt 130 (net_water rainfall cover_pct mowing_time climate_change) /\
   ~ py_le (net_water rainfall cover_pct mowing_time climate_change) 130 /\
   py_lt 0 (yield_kg rainfall cover_pct mowing_time climate_change) /\
   yield_kg rainfall cover_pct mowing_time climate_change
     = (10 * net_water rainfall cover_pct mowing_time climate_change
        - 1300)%float) \/
  (py_le (net_water rainfall cover_pct mowing_time climate_change) 130 /\
   yield_kg rainfall cover_pct mowing_time climate_change = 0%float).
Proof.
  intros (Hr & Hc & Hm).
  set (x := net_water rainfall cover_pct mowing_time climate_change).
  assert (T : (Bool.eqb (0 <? 10 * x - 1300) (130 <? x)
               && Bool.eqb (x <=? 130) (negb (130 <? x)))%float = true).
  { subst x. each_label Hm; destruct climate_change;
      by_table rainfall cover_pct. }
  apply andb_prop in T as [T1 T2].
  apply eqb_prop in T1. apply eqb_prop in T2.
  unfold yield_kg, py_max, py_lt, py_le. fold x. rewrite T1, T2.
  destruct (130 <? x)%float.
  - left. repeat split; [discriminate | exact T1].
  - right. repeat split.
Qed.

(** X11.  For every valid input the yield is positive exactly when the net
    water is above 130 mm, and then it is ten times the net water less 1300;
    at 130 mm or less the yield is zero. *)
Theorem yield_threshold (rainfall cover_pct : Z) (mowing_time : string)
    (climate_change : bool) :
  valid_input rainfall cover_pct mowing_time ->
  (py_lt 130 (net_water rainfall cover_pct mowing_time climate_change) /\
   py_lt 0 (yield_kg rainfall cover_pct mowing_time climate_change) /\
   yield_kg rainfall cover_pct mowing_time climate_change
     = (10 * net_water rainfall cover_pct mowing_time climate_change
        - 1300)%float) \/
  (py_le (net_water rainfall cover_pct mowing_time climate_change) 130 /\
   yield_kg rainfall cover_pct mowing_time climate_change = 0%float).
Proof.
  intros V.
  destruct (yield_cases rainfall cover_pct mowing_time climate_change V)
    as [(Hgt & _ & Hpos & Hy)|Hlow].
  - left. split; [exact Hgt | split; [exact Hpos | exact Hy]].
  - right. exact Hlow.
Qed.

Lemma yield_threshold_witness :
  yield_kg 200 100 unmowed false = 0%float.
Proof.
  destruct (yield_threshold 200 100 unmowed false) as [(E & _)|(_ & Hy)];
    [concrete_input | vm_compute in E; discriminate E | exact Hy].
Defined.

(** ** The metrics *)

(** X12.  For every input the soil-loss metric reads "0.2 mm/yr" when the
    cover is 30 or more, and below that "3.0 mm/yr" under the climate
    scenario and "2.0 mm/yr" without it. *)
Theorem metric_soil_loss_text (cover_pct : Z) (climate_change : bool) :
  metric_soil_loss cover_pct climate_change
  = if (cover_pct <? 30)%Z
    then (if climate_change then "3.0 mm/yr" else "2.0 mm/yr")%string
    else "0.2 mm/yr"%string.
Proof.
  unfold metric_soil_loss. rewrite erosion_rate_cases.
  destruct (cover_pct <? 30)%Z, climate_change; vm_compute; reflexivity.
Qed.

(** X13.  For every valid input whose net water is 130 mm or less, the yield
    metric reads "0 kg/ha". *)
Theorem metric_yield_zero (rainfall cover_pct : Z) (mowing_time : string)
    (climate_change : bool) :
  valid_input rainfall cover_pct mowing_time ->
  py_le (net_water rainfall cover_pct mowing_time climate_change) 130 ->
  metric_yield rainfall cover_pct mowing_time climate_change
  = "0 kg/ha"%string.
Proof.
  intros V Hle.
  destruct (yield_cases rainfall cover_pct mowing_time climate_change V)
    as [(_ & Hnot & _)|(_ & Hy)].
  - contradiction.
  - unfold metric_yield. rewrite Hy. reflexivity.
Qed.

Lemma metric_yield_zero_witness :
  metric_yield 200 100 unmowed false = "0 kg/ha"%string.
Proof.
  apply (metric_yield_zero 200 100 unmowed false);
    [concrete_input | vm_compute; reflexivity].
Defined.

Lemma string_of_uint_head (u : Decimal.uint) :
  exists (c : ascii) (s : string),
    DecimalString.NilZero.string_of_uint u = String c s /\ c <> "-"%char.
Proof.
  destruct u; simpl; eexists; eexists; (split; [reflexivity | discriminate]).
Qed.

(** A float that is the literal zero or above zero is formatted without a
    leading minus sign. *)
Lemma py_format_f_unsigned (p : nat) (x : float) (rest : string) :
  x = 0%float \/ py_lt 0 x ->
  exists (c : ascii) (s : string),
    (py_format_f p x ++ rest)%string = String c s /\ c <> "-"%char.
Proof.
  unfold py_format_f, fixed_point.
  intros [->|Hpos].
  - change (Prim2SF 0) with (S754_zero false). cbn [String.append].
    destruct (string_of_uint_head (N.to_uint (Z.to_N (0 / 10 ^ Z.of_nat p))))
      as (c & s & -> & Hc).
    exists c. eexists. split; [reflexivity | exact Hc].
  - unfold py_lt in Hpos. rewrite ltb_spec in Hpos. unfold SFltb in Hpos.
    change (Prim2SF 0) with (S754_zero false) in Hpos.
    destruct (Prim2SF x) as [s|s| |s m e]; simpl in Hpos;
      try destruct s; try discriminate.
    + exists "i"%char. eexists. split; [reflexivity | discriminate].
    + cbn [String.append].
      destruct (string_of_uint_head
                  (N.to_uint (Z.to_N (scaled_magnitude m e p / 10 ^ Z.of_nat p))))
        as (c & s & -> & Hc).
      exists c. eexists. split; [reflexivity | exact Hc].
Qed.

(** X14.  For every input, in or out of the bounds, the yield metric never
    starts with a minus sign. *)
Theorem metric_yield_unsigned (rainfall cover_pct : Z) (mowing_time : string)
    (climate_change : bool) :
  String.get 0 (metric_yield rainfall cover_pct mowing_time climate_change)
  <> Some "-"%char.
Proof.
  unfold metric_yield.
  destruct (py_format_f_unsigned 0
              (yield_kg rainfall cover_pct mowing_time climate_change)
              " kg/ha") as (c & s & -> & Hc).
  - unfold yield_kg, py_max.
    destruct (0 <? _)%float eqn:E; [right; exact E | left; reflexivity].
  - simpl. congruence.
Qed.

(** ** More cover *)

(** X15.  For two valid inputs that differ only in the cover, the one with
    more cover transpires at least as much and erodes no faster. *)
Theorem more_cover_transpires_more (rainfall cover1 cover2 : Z)
    (mowing_time : string) (climate_change : bool) :
  valid_input rainfall cover1 mowing_time ->
  valid_input rainfall cover2 mowing_time ->
  (cover1 <= cover2)%Z ->
  py_le (transp_mm cover1 mowing_time) (transp_mm cover2 mowing_time) /\
  py_le (erosion_rate cover2 climate_change) (erosion_rate cover1 climate_change).
Proof.
  intros (_ & Hc1 & Hm) (_ & Hc2 & _) Hle. split.
  - assert (T : forallb (fun c : Z =>
                  (transp_mm c mowing_time <=? transp_mm (c + 1) mowing_time)%float)
                (py_range cover_min cover_max) = true)
      by (each_label Hm; vm_compute; reflexivity).
    rewrite forallb_forall in T.
    apply (steps_to_monotone (fun c => transp_mm c mowing_time)
             cover_min cover_max); try lia; [reflexivity | ].
    intros c Hc. apply T, py_range_In. exact Hc.
  - rewrite !erosion_rate_cases.
    destruct (Z.ltb_spec cover1 30), (Z.ltb_spec cover2 30), climate_change;
      try reflexivity; lia.
Qed.

Lemma more_cover_transpires_more_witness :
  py_le (transp_mm 20 unmowed) (transp_mm 90 unmowed) /\
  py_le (erosion_rate 90 true) (erosion_rate 20 true).
Proof.
  apply (more_cover_transpires_more 400 20 90 unmowed true);
    [concrete_input | concrete_input | lia].
Defined.
